(** * The Vite configuration of the Django front end

    A shallow embedding of [frontend/vite.config.mjs]: the function the module
    exports by default, which maps Vite's configuration environment
    ([{ mode }]) to the configuration object of the build tool, together with
    the two library calls it makes ([path.resolve] of Node and the template
    literal's string conversion). *)

From Stdlib Require Import ZArith String Ascii List DecimalString Lia.
From stdpp Require Import base option list strings gmap.

Local Open Scope Z_scope.

(** ** JavaScript values

    The primitive values this module handles.  [Number] carries the
    integer-valued numbers only: the one number of the source is the port. *)

Inductive value : Type :=
| Undefined
| Null
| Bool (b : bool)
| Number (n : Z)
| Str (s : string).

(** [a === b]: no conversion; values of different types are never equal. *)
Definition strict_equals (a b : value) : bool :=
  match a, b with
  | Undefined, Undefined => true
  | Null, Null => true
  | Bool x, Bool y => Bool.eqb x y
  | Number x, Number y => Z.eqb x y
  | Str x, Str y => String.eqb x y
  | _, _ => false
  end.

(** The string conversion a template literal applies to each [${...}]. *)
Definition ToString (v : value) : string :=
  match v with
  | Undefined => "undefined"
  | Null => "null"
  | Bool true => "true"
  | Bool false => "false"
  | Number n => NilZero.string_of_int (Z.to_int n)
  | Str s => s
  end.

(** ** Completions

    A call either returns normally or throws.  The state threaded through is
    what the module can observe of its process: the working directory, which
    [path.resolve] consults when its arguments do not make an absolute path. *)

Record Process : Type := { cwd : string }.

Inductive Error : Type :=
| TypeError (msg : string).

Inductive completion (A : Type) : Type :=
| Normal (a : A)
| Throw (e : Error).
Arguments Normal {A} a.
Arguments Throw {A} e.

Definition M (A : Type) : Type := Process -> completion A * Process.

Definition ret {A} (a : A) : M A := fun p => (Normal a, p).

Definition throw {A} (e : Error) : M A := fun p => (Throw e, p).

Definition bind {A B} (m : M A) (k : A -> M B) : M B :=
  fun p =>
    match m p with
    | (Normal a, p') => k a p'
    | (Throw e, p') => (Throw e, p')
    end.

Definition process_cwd : M string := fun p => (Normal (cwd p), p).

Notation "'let!' x ':=' m 'in' k" := (bind m (fun x => k))
  (at level 10, x pattern, m at level 200, k at level 200).

(** ** Node's [path] module (POSIX flavour)

    The module is imported, not part of the repository: [resolve] follows the
    algorithm Node documents for it, on the segments of the path rather than
    on its characters. *)

Module path.

Definition starts_with_slash (s : string) : bool :=
  match s with
  | String c _ => Ascii.eqb c "/"
  | EmptyString => false
  end.

(** The segments of a path: the pieces between its slashes. *)
Fixpoint split (s : string) : list string :=
  match s with
  | EmptyString => [EmptyString]
  | String c s' =>
      if Ascii.eqb c "/" then EmptyString :: split s'
      else match split s' with
           | seg :: segs => String c seg :: segs
           | [] => [String c EmptyString]
           end
  end.

Definition join (segs : list string) : string := String.concat "/" segs.

(** [normalizeString]: resolves the [.] and [..] segments of a path.  [res]
    is the result built so far, last segment first.  An empty segment (a
    doubled or trailing slash) and [.] are dropped; [..] removes the last
    segment of the result, unless there is none or it is itself [..], when
    [..] is kept only if the path may climb above its root. *)
Fixpoint normalizeString (allowAboveRoot : bool) (res segs : list string)
  : list string :=
  match segs with
  | [] => rev res
  | seg :: rest =>
      if String.eqb seg "" then normalizeString allowAboveRoot res rest
      else if String.eqb seg "." then normalizeString allowAboveRoot res rest
      else if String.eqb seg ".." then
        match res with
        | last :: res' =>
            if String.eqb last ".."
            then normalizeString allowAboveRoot (".."%string :: res) rest
            else normalizeString allowAboveRoot res' rest
        | [] =>
            if allowAboveRoot
            then normalizeString allowAboveRoot [".."%string] rest
            else normalizeString allowAboveRoot [] rest
        end
      else normalizeString allowAboveRoot (seg :: res) rest
  end.

(** The loop of [resolve]: the arguments are visited from the last to the
    first, each validated as a string when visited, empty ones skipped, and
    each prepended to the path until one is absolute; when none is, the
    working directory is prepended last. *)
Fixpoint resolve_loop (rev_args : list value) (resolvedPath : string)
  : M (string * bool) :=
  match rev_args with
  | [] =>
      let! dir := process_cwd in
      if String.eqb dir "" then ret (resolvedPath, false)
      else ret (dir +:+ "/" +:+ resolvedPath, starts_with_slash dir)
  | Str p :: rest =>
      if String.eqb p "" then resolve_loop rest resolvedPath
      else if starts_with_slash p then ret (p +:+ "/" +:+ resolvedPath, true)
      else resolve_loop rest (p +:+ "/" +:+ resolvedPath)
  | _ :: _ =>
      throw (TypeError "The paths argument must be of type string")
  end.

Definition resolve (args : list value) : M string :=
  let! (resolvedPath, resolvedAbsolute) := resolve_loop (rev args) "" in
  let normalized :=
    join (normalizeString (negb resolvedAbsolute) [] (split resolvedPath)) in
  if resolvedAbsolute then ret ("/" +:+ normalized)
  else if String.eqb normalized "" then ret "."%string
  else ret normalized.

End path.

(** ** The configuration object

    The object literal the callback returns, field for field.  [rollupOptions]
    and [alias] are objects used as maps from a key to a string. *)

Record ServerOptions : Type := {
  host : string;
  port : Z;
  strictPort : bool;
  origin : string;
}.

Record BuildOptions : Type := {
  manifest : bool;
  outDir : string;
  emptyOutDir : bool;
  rollupOptions : gmap string string;
}.

Record ResolveOptions : Type := {
  alias : gmap string string;
}.

Record UserConfig (PluginOption : Type) : Type := {
  base : string;
  plugins : list PluginOption;
  server : ServerOptions;
  build : BuildOptions;
  resolve : ResolveOptions;
}.
Arguments base {PluginOption} _.
Arguments plugins {PluginOption} _.
Arguments server {PluginOption} _.
Arguments build {PluginOption} _.
Arguments resolve {PluginOption} _.

(** The environment Vite passes to the callback; the source reads [mode]. *)
Record ConfigEnv : Type := { mode : value }.

(** [defineConfig] of Vite returns its argument. *)
Definition defineConfig {A : Type} (config : A) : A := config.

(** ** The module *)

(** The constants of the callback's body, in the order of the source. *)
Definition isDev (mode : value) : bool :=
  strict_equals mode (Str "development").

Definition devHost : string := "localhost".

Definition devPort : Z := 5173.

Definition devOrigin (mode : value) : string :=
  if isDev mode
  then "http://" +:+ ToString (Str devHost) +:+ ":" +:+ ToString (Number devPort)
  else "".

Section Config.

(** What the module imports or finds in its scope: the plugin factory of
    [@tailwindcss/vite], whose result is an opaque handle here, and
    [__dirname], the directory of the configuration file. *)
Context {PluginOption : Type}.
Variable tailwindcss : unit -> PluginOption.
Variable __dirname : string.

Definition export_default : ConfigEnv -> M (UserConfig PluginOption) :=
  defineConfig (fun env =>
    let mode := mode env in
    let plugin := tailwindcss tt in
    let! src := path.resolve [Str __dirname; Str "./src"] in
    ret {|
      base := devOrigin mode +:+ "/static/";
      plugins := [plugin];
      server := {|
        host := devHost;
        port := devPort;
        strictPort := true;
        origin := devOrigin mode;
      |};
      build := {|
        manifest := true;
        outDir := "./dist/";
        emptyOutDir := true;
        rollupOptions := {[ "main"%string := "./src/main.js"%string ]};
      |};
      resolve := {|
        alias := {[ "@"%string := src ]};
      |};
    |}).

End Config.

(** ** Objects and their identity

    A plugin object holds functions, and a function is equal to itself only:
    every call of the plugin factory makes its functions anew.  The realm
    counts the objects made so far and an object is known by its number, so
    two objects are the same exactly when one call made them. *)

Record Realm : Type := { process : Process; allocated : nat }.

Definition R (A : Type) : Type := Realm -> completion A * Realm.

Definition retR {A} (a : A) : R A := fun r => (Normal a, r).

Definition bindR {A B} (m : R A) (k : A -> R B) : R B :=
  fun r =>
    match m r with
    | (Normal a, r') => k a r'
    | (Throw e, r') => (Throw e, r')
    end.

(** A call that touches the process only. *)
Definition in_process {A} (m : M A) : R A :=
  fun r =>
    let (a, p') := m (process r) in
    (a, {| process := p'; allocated := allocated r |}).

(** The making of an object. *)
Definition new_object : R nat :=
  fun r =>
    (Normal (allocated r),
     {| process := process r; allocated := S (allocated r) |}).

Notation "'call' x ':=' m 'in' k" := (bindR m (fun x => k))
  (at level 10, x pattern, m at level 200, k at level 200).

Section ConfigInRealm.

(** The callback with [tailwindcss()] as the call it is in the source: it
    is evaluated at every invocation, may make objects and may throw.
    [export_default] above is this callback for a factory that returns one
    and the same handle and does nothing else. *)
Context {PluginOption : Type}.
Variable tailwindcss : unit -> R PluginOption.
Variable __dirname : string.

Definition export_default_realm : ConfigEnv -> R (UserConfig PluginOption) :=
  defineConfig (fun env =>
    let mode := mode env in
    call plugin := tailwindcss tt in
    call src := in_process (path.resolve [Str __dirname; Str "./src"]) in
    retR {|
      base := devOrigin mode +:+ "/static/";
      plugins := [plugin];
      server := {|
        host := devHost;
        port := devPort;
        strictPort := true;
        origin := devOrigin mode;
      |};
      build := {|
        manifest := true;
        outDir := "./dist/";
        emptyOutDir := true;
        rollupOptions := {[ "main"%string := "./src/main.js"%string ]};
      |};
      resolve := {|
        alias := {[ "@"%string := src ]};
      |};
    |}).

End ConfigInRealm.

(** ** Directories

    A directory as the module loader hands it over in [__dirname]: a slash,
    then the names of the directories from the root down, with a slash between
    two names.  A name is ordinary when it is not empty, is neither [.] nor
    [..] and holds no slash. *)

Fixpoint has_slash (s : string) : bool :=
  match s with
  | EmptyString => false
  | String c s' => Ascii.eqb c "/" || has_slash s'
  end.

Definition ordinary (seg : string) : bool :=
  negb (String.eqb seg "") && negb (String.eqb seg ".")
  && negb (String.eqb seg "..") && negb (has_slash seg).

Definition absolute_path (segs : list string) : string :=
  "/" +:+ path.join segs.

(** Whether a value is a string, which is what [path.resolve] checks. *)
Definition is_Str (v : value) : bool :=
  match v with
  | Str _ => true
  | _ => false
  end.

(** * Properties *)

(** ** Strict equality and the template literal *)

Lemma strict_equals_Str (v : value) (s : string) :
  strict_equals v (Str s) = true <-> v = Str s.
Proof.
  destruct v as [| | b | n | t]; simpl; split; try discriminate.
  - intros H. apply String.eqb_eq in H. now subst.
  - intros H. injection H as ->. apply String.eqb_refl.
Qed.

Lemma isDev_iff (mode : value) :
  isDev mode = true <-> mode = Str "development".
Proof. apply strict_equals_Str. Qed.

Lemma isDev_false_iff (mode : value) :
  isDev mode = false <-> mode <> Str "development".
Proof.
  rewrite <- isDev_iff. destruct (isDev mode); split; congruence.
Qed.

Lemma devOrigin_development :
  devOrigin (Str "development") = "http://localhost:5173".
Proof. reflexivity. Qed.

Lemma devOrigin_other (mode : value) :
  mode <> Str "development" -> devOrigin mode = "".
Proof.
  intros H. apply isDev_false_iff in H. unfold devOrigin. now rewrite H.
Qed.

(** ** Paths *)

Lemma append_assoc (a b c : string) : (a +:+ b) +:+ c = a +:+ (b +:+ c).
Proof.
  induction a as [| x a IH]; [reflexivity |].
  change (String x ((a +:+ b) +:+ c) = String x (a +:+ (b +:+ c))).
  now rewrite IH.
Qed.

Lemma split_no_slash (a s : string) :
  has_slash a = false ->
  path.split (a +:+ String "/" s) = a :: path.split s.
Proof.
  induction a as [| c a IH]; intros H.
  - reflexivity.
  - simpl in H. apply orb_false_iff in H as [Hc Ha].
    change (String c a +:+ String "/" s) with (String c (a +:+ String "/" s)).
    simpl. rewrite Hc, (IH Ha). reflexivity.
Qed.

Lemma ordinary_no_slash (seg : string) :
  ordinary seg = true -> has_slash seg = false.
Proof.
  unfold ordinary. intros H.
  apply andb_true_iff in H as [_ H]. now apply negb_true_iff in H.
Qed.

(** The segments of a joined list of names are the names, except that the
    empty list joins to the empty string, which is one empty segment. *)
Lemma split_join (segs : list string) (s : string) :
  forallb ordinary segs = true ->
  path.split (path.join segs +:+ String "/" s)
  = match segs with
    | [] => [EmptyString]
    | _ => segs
    end ++ path.split s.
Proof.
  induction segs as [| a [| b segs] IH]; intros H.
  - reflexivity.
  - simpl in H. apply andb_true_iff in H as [Ha _].
    unfold path.join; simpl concat.
    now rewrite (split_no_slash _ _ (ordinary_no_slash _ Ha)).
  - change (forallb ordinary (a :: b :: segs))
      with (ordinary a && forallb ordinary (b :: segs)) in H.
    apply andb_true_iff in H as [Ha Hrest].
    change (path.join (a :: b :: segs))
      with (a +:+ String "/" (path.join (b :: segs))).
    rewrite append_assoc.
    change (String "/" (path.join (b :: segs)) +:+ String "/" s)
      with (String "/" (path.join (b :: segs) +:+ String "/" s)).
    rewrite (split_no_slash _ _ (ordinary_no_slash _ Ha)), (IH Hrest).
    reflexivity.
Qed.

(** Ordinary names are pushed on the result one after the other. *)
Lemma normalizeString_ordinary (above : bool) (segs res more : list string) :
  forallb ordinary segs = true ->
  path.normalizeString above res (segs ++ more)
  = path.normalizeString above (rev segs ++ res) more.
Proof.
  revert res. induction segs as [| a segs IH]; intros res H.
  - reflexivity.
  - simpl in H. apply andb_true_iff in H as [Ha Hsegs].
    unfold ordinary in Ha.
    apply andb_true_iff in Ha as [Ha _].
    apply andb_true_iff in Ha as [Ha Hdd].
    apply andb_true_iff in Ha as [He Hd].
    apply negb_true_iff in He, Hd, Hdd.
    simpl. rewrite He, Hd, Hdd, (IH _ Hsegs).
    now rewrite <- app_assoc.
Qed.

(** ** [path.resolve] *)

Lemma forallb_rev {A : Type} (f : A -> bool) (l : list A) :
  forallb f (rev l) = forallb f l.
Proof.
  induction l as [| x l IH]; [reflexivity |].
  simpl. rewrite forallb_app, IH. simpl.
  rewrite andb_true_r. apply andb_comm.
Qed.

(** On strings the loop throws nothing and leaves the process as it is. *)
Lemma resolve_loop_strings (args : list value) (acc : string) (p : Process) :
  forallb is_Str args = true ->
  exists r, path.resolve_loop args acc p = (Normal r, p).
Proof.
  revert acc. induction args as [| v args IH]; intros acc H.
  - unfold path.resolve_loop, bind, process_cwd.
    destruct (String.eqb (cwd p) ""); eexists; reflexivity.
  - simpl in H. apply andb_true_iff in H as [Hv Hargs].
    destruct v as [| | b | n | s]; try discriminate.
    simpl. destruct (String.eqb s ""); [now apply IH |].
    destruct (path.starts_with_slash s); [eexists; reflexivity | now apply IH].
Qed.

Lemma resolve_strings (args : list value) (p : Process) :
  forallb is_Str args = true ->
  exists s, path.resolve args p = (Normal s, p).
Proof.
  intros H. rewrite <- forallb_rev in H.
  destruct (resolve_loop_strings _ "" p H) as [[r abs] Hr].
  unfold path.resolve, bind. rewrite Hr.
  destruct abs; [eexists; reflexivity |].
  destruct (String.eqb _ ""); eexists; reflexivity.
Qed.

(** When the directory is absolute the working directory is not read. *)
Lemma resolve_absolute (d rel : string) (p : Process) :
  path.starts_with_slash d = true ->
  path.starts_with_slash rel = false ->
  rel <> EmptyString ->
  path.resolve [Str d; Str rel] p
  = (Normal ("/" +:+ path.join (path.normalizeString false []
               (path.split (d +:+ "/" +:+ rel +:+ "/" +:+ "")))), p).
Proof.
  intros Hd Hrel Hne.
  unfold path.resolve, bind. simpl rev. simpl path.resolve_loop.
  apply String.eqb_neq in Hne. rewrite Hne, Hrel.
  destruct d as [| c d]; [discriminate |].
  simpl String.eqb. rewrite Hd. reflexivity.
Qed.

(** A directory next to an absolute, normal directory. *)
Lemma resolve_adjacent (dir : list string) (name : string) (p : Process) :
  forallb ordinary dir = true ->
  ordinary name = true ->
  path.resolve [Str (absolute_path dir); Str ("./" +:+ name)] p
  = (Normal (absolute_path (dir ++ [name])), p).
Proof.
  intros Hdir Hname.
  rewrite resolve_absolute; [| reflexivity | reflexivity | discriminate].
  unfold absolute_path. do 3 f_equal.
  replace (("/" +:+ path.join dir) +:+ "/" +:+ ("./" +:+ name) +:+ "/" +:+ "")
    with (String "/" (path.join dir
            +:+ String "/" ("." +:+ String "/" (name +:+ String "/" ""))))
    by reflexivity.
  change (path.split (String "/" ?s)) with (EmptyString :: path.split s).
  rewrite (split_join _ _ Hdir).
  rewrite (split_no_slash "." _ eq_refl).
  rewrite (split_no_slash name _ (ordinary_no_slash _ Hname)).
  change (path.split "") with [EmptyString].
  change (path.normalizeString false [] (EmptyString :: ?l))
    with (path.normalizeString false [] l).
  assert (Hlast : forall res,
             path.normalizeString false res [name; EmptyString]
             = rev (name :: res)).
  { intros res.
    apply (normalizeString_ordinary false [name] res [EmptyString]).
    simpl. now rewrite Hname. }
  destruct dir as [| a dir].
  - change (path.normalizeString false [] ([EmptyString] ++ "."%string :: ?l))
      with (path.normalizeString false [] l).
    now rewrite Hlast.
  - rewrite (normalizeString_ordinary false (a :: dir) [] _ Hdir).
    change (path.normalizeString false ?r ("."%string :: ?l))
      with (path.normalizeString false r l).
    rewrite Hlast, app_nil_r.
    change (rev (name :: ?r)) with (rev r ++ [name]).
    now rewrite rev_involutive.
Qed.

(** ** The callback *)

Section Properties.

Context {PluginOption : Type}.
Variable tailwindcss : unit -> PluginOption.
Variable __dirname : string.

Local Abbreviation provider := (export_default tailwindcss __dirname).

(** The callback throws nothing, leaves the process as it is and returns
    the object literal of the source, whose only computed parts are
    [devOrigin] and the resolved alias. *)
Lemma export_default_returns (env : ConfigEnv) (p : Process) :
  exists src,
    path.resolve [Str __dirname; Str "./src"] p = (Normal src, p) /\
    provider env p
    = (Normal {|
         base := devOrigin (mode env) +:+ "/static/";
         plugins := [tailwindcss tt];
         server := {| host := "localhost"; port := 5173; strictPort := true;
                      origin := devOrigin (mode env) |};
         build := {| manifest := true; outDir := "./dist/";
                     emptyOutDir := true;
                     rollupOptions := {[ "main"%string := "./src/main.js"%string ]} |};
         resolve := {| alias := {[ "@"%string := src ]} |};
       |}, p).
Proof.
  destruct (resolve_strings [Str __dirname; Str "./src"] p eq_refl)
    as [src Hsrc].
  exists src. split; [exact Hsrc |].
  unfold export_default, defineConfig, bind. rewrite Hsrc. reflexivity.
Qed.

Ltac returned c Hc :=
  match goal with
  | |- context [export_default _ _ ?env ?p] =>
      let src := fresh "src" in
      let Hsrc := fresh "Hsrc" in
      destruct (export_default_returns env p) as (src & Hsrc & Hc);
      eexists; split; [exact Hc |]; cbn [base plugins server build resolve
        host port strictPort origin manifest outDir emptyOutDir
        rollupOptions alias mode]
  end.

(** C1. In mode ["development"] the callback returns an object whose
    [base] is ["http://localhost:5173/static/"] and whose [server.origin]
    is [devOrigin], which is ["http://localhost:5173"]. *)
Theorem development_origin_and_base (p : Process) :
  exists c,
    provider {| mode := Str "development" |} p = (Normal c, p) /\
    devOrigin (Str "development") = "http://localhost:5173" /\
    base c = "http://localhost:5173/static/" /\
    origin (server c) = devOrigin (Str "development").
Proof.
  returned c Hc. repeat split; reflexivity.
Qed.

(** C2. For every mode other than the string ["development"] the
    development branch is not taken: [devOrigin] is the empty string and
    [base] is ["/static/"].  The mode is compared with [===], so a string
    that differs in one letter, or a value that is not a string, is such a
    mode. *)
Theorem other_modes_are_production (m : value) (p : Process) :
  m <> Str "development" ->
  exists c,
    provider {| mode := m |} p = (Normal c, p) /\
    isDev m = false /\
    devOrigin m = "" /\
    base c = "/static/".
Proof.
  intros Hm. returned c Hc.
  rewrite (devOrigin_other m Hm).
  split; [now apply isDev_false_iff |]. split; reflexivity.
Qed.

(** C3. For every mode, [base] is [devOrigin] followed by ["/static/"] and
    [server.origin] is that same [devOrigin], which is
    ["http://localhost:5173"] exactly when the mode is ["development"] and
    the empty string exactly when it is not. *)
Theorem base_and_origin_invariant (m : value) (p : Process) :
  exists c,
    provider {| mode := m |} p = (Normal c, p) /\
    base c = devOrigin m +:+ "/static/" /\
    origin (server c) = devOrigin m /\
    (devOrigin m = "http://localhost:5173" <-> m = Str "development") /\
    (devOrigin m = "" <-> m <> Str "development").
Proof.
  returned c Hc.
  split; [reflexivity |]. split; [reflexivity |].
  assert (Hother : devOrigin m = "" <-> m <> Str "development").
  { split; [| apply devOrigin_other].
    intros H ->. discriminate H. }
  split; [| exact Hother].
  split; [| intros ->; reflexivity].
  intros H. destruct (isDev m) eqn:Hdev; [now apply isDev_iff |].
  apply isDev_false_iff, Hother in Hdev.
  rewrite Hdev in H. discriminate H.
Qed.

(** C4. The claim is that the [build] block designates [./src/main.js] as
    the entry point.  The bundler reads its entry point from the [input]
    key of [rollupOptions]; the object the callback returns has, for every
    mode, the path under the key [main] of [rollupOptions] itself and no
    key [input], so no entry point is designated. *)
Theorem rollupOptions_main_is_not_input (m : value) (p : Process) :
  exists c,
    provider {| mode := m |} p = (Normal c, p) /\
    rollupOptions (build c) = {[ "main"%string := "./src/main.js"%string ]} /\
    rollupOptions (build c) !! "main"%string = Some "./src/main.js"%string /\
    rollupOptions (build c) !! "input"%string = None.
Proof.
  returned c Hc.
  split; [reflexivity |]. split; [apply lookup_singleton_eq |].
  now apply lookup_singleton_ne.
Qed.

(** C5. For every mode, the alias [@] is bound to the absolute path of the
    directory [src] next to the configuration file: when [__dirname] is
    the directory [/d1/.../dn] of the file, the alias is
    [/d1/.../dn/src], whatever the working directory of the process. *)
Theorem alias_at_is_src_next_to_config
    (dir : list string) (m : value) (p : Process) :
  forallb ordinary dir = true ->
  __dirname = absolute_path dir ->
  exists c,
    provider {| mode := m |} p = (Normal c, p) /\
    alias (resolve c) !! "@"%string = Some (absolute_path (dir ++ ["src"%string])) /\
    path.starts_with_slash (absolute_path (dir ++ ["src"%string])) = true.
Proof.
  intros Hdir Heq.
  destruct (export_default_returns {| mode := m |} p) as (src & Hsrc & Hc).
  rewrite Heq in Hsrc.
  assert (Hadj : path.resolve [Str (absolute_path dir); Str "./src"] p
                 = (Normal (absolute_path (dir ++ ["src"%string])), p))
    by exact (resolve_adjacent dir "src" p Hdir eq_refl).
  rewrite Hadj in Hsrc.
  injection Hsrc as <-.
  eexists. split; [exact Hc |]. cbn [resolve alias].
  split; [apply lookup_singleton_eq | reflexivity].
Qed.

(** C6. For every mode, the [server] block has [host] ["localhost"],
    [port] 5173 and [strictPort] true. *)
Theorem dev_server_block (m : value) (p : Process) :
  exists c,
    provider {| mode := m |} p = (Normal c, p) /\
    host (server c) = "localhost" /\
    port (server c) = 5173 /\
    strictPort (server c) = true.
Proof.
  returned c Hc. repeat split.
Qed.

(** C7. For every mode, the [build] block has [outDir] ["./dist/"],
    [manifest] true and [emptyOutDir] true. *)
Theorem build_block_constants (m : value) (p : Process) :
  exists c,
    provider {| mode := m |} p = (Normal c, p) /\
    outDir (build c) = "./dist/" /\
    manifest (build c) = true /\
    emptyOutDir (build c) = true.
Proof.
  returned c Hc. repeat split.
Qed.

(** C8. The callback is total: for every mode, in every state of the
    process, it returns a configuration object and throws nothing; a mode
    that is not ["development"] gets the production values. *)
Theorem provider_total (m : value) (p : Process) :
  exists c,
    provider {| mode := m |} p = (Normal c, p) /\
    (m <> Str "development" ->
     base c = "/static/" /\ origin (server c) = "").
Proof.
  returned c Hc. intros Hm. now rewrite (devOrigin_other m Hm).
Qed.


End Properties.

(** ** The callback at concrete inputs

    A configuration file in [/srv/app/frontend], a process started in
    [/srv/app], and a plugin factory that returns a token. *)

Example resolve_src_example :
  path.resolve [Str "/srv/app/frontend"; Str "./src"] {| cwd := "/srv/app" |}
  = (Normal "/srv/app/frontend/src"%string, {| cwd := "/srv/app" |}).
Proof. reflexivity. Qed.

Example resolve_validates_example :
  fst (path.resolve [Str "/srv/app/frontend"; Undefined] {| cwd := "/srv/app" |})
  = Throw (TypeError "The paths argument must be of type string").
Proof. reflexivity. Qed.

Example isDev_examples :
  map isDev [Str "development"; Str "production"; Str ""; Str "test";
             Str "Development"; Str "development "; Undefined]
  = [true; false; false; false; false; false; false].
Proof. reflexivity. Qed.

Example base_examples :
  map (fun m =>
         match fst (export_default (fun _ : unit => tt) "/srv/app/frontend"
                      {| mode := Str m |} {| cwd := "/srv/app" |}) with
         | Normal c => Some (base c, origin (server c))
         | Throw _ => None
         end)
      ["development"; "production"; "Development"]%string
  = [Some ("http://localhost:5173/static/", "http://localhost:5173");
     Some ("/static/", ""); Some ("/static/", "")]%string.
Proof. reflexivity. Qed.

Lemma other_modes_are_production_witness :
  Str "Development" <> Str "development" /\
  exists c,
    export_default (fun _ : unit => tt) "/srv/app/frontend"
      {| mode := Str "Development" |} {| cwd := "/srv/app" |}
    = (Normal c, {| cwd := "/srv/app" |}) /\
    isDev (Str "Development") = false /\
    devOrigin (Str "Development") = "" /\
    base c = "/static/".
Proof.
  split; [discriminate |].
  apply other_modes_are_production. discriminate.
Defined.

Lemma alias_at_is_src_next_to_config_witness :
  forallb ordinary ["srv"; "app"; "frontend"]%string = true /\
  "/srv/app/frontend"%string = absolute_path ["srv"; "app"; "frontend"]%string /\
  exists c,
    export_default (fun _ : unit => tt) "/srv/app/frontend"
      {| mode := Str "production" |} {| cwd := "/tmp" |}
    = (Normal c, {| cwd := "/tmp" |}) /\
    alias (resolve c) !! "@"%string = Some "/srv/app/frontend/src"%string /\
    path.starts_with_slash "/srv/app/frontend/src" = true.
Proof.
  split; [reflexivity |]. split; [reflexivity |].
  apply (alias_at_is_src_next_to_config (fun _ : unit => tt)
           "/srv/app/frontend" ["srv"; "app"; "frontend"]%string);
    reflexivity.
Defined.

(** * Further properties of the callback *)

(** ** Segments of a path *)

Lemma split_nonempty (s : string) : path.split s <> [].
Proof.
  destruct s as [| c s]; simpl; [discriminate |].
  destruct (Ascii.eqb c "/"); [discriminate |].
  destruct (path.split s); discriminate.
Qed.

(** A slash cuts a path in two: the segments are those of the two sides. *)
Lemma split_app_slash (a s : string) :
  path.split (a +:+ String "/" s) = path.split a ++ path.split s.
Proof.
  induction a as [| c a IH]; [reflexivity |].
  change (String c a +:+ String "/" s) with (String c (a +:+ String "/" s)).
  simpl. rewrite IH.
  destruct (Ascii.eqb c "/"); [reflexivity |].
  destruct (path.split a) as [| seg segs] eqn:Ha; [| reflexivity].
  now destruct (split_nonempty a).
Qed.

Lemma split_segments_no_slash (s : string) :
  forallb (fun seg => negb (has_slash seg)) (path.split s) = true.
Proof.
  induction s as [| c s IH]; [reflexivity |].
  simpl. destruct (Ascii.eqb c "/") eqn:Hc; [exact IH |].
  destruct (path.split s) as [| seg segs]; simpl in *; now rewrite Hc.
Qed.

(** Normalizing a path piece by piece. *)
Lemma normalizeString_app (above : bool) (res l1 l2 : list string) :
  path.normalizeString above res (l1 ++ l2)
  = path.normalizeString above (rev (path.normalizeString above res l1)) l2.
Proof.
  revert res. induction l1 as [| seg l1 IH]; intros res.
  - simpl. now rewrite rev_involutive.
  - simpl.
    destruct (String.eqb seg ""); [apply IH |].
    destruct (String.eqb seg "."); [apply IH |].
    destruct (String.eqb seg ".."); [| apply IH].
    destruct res as [| last res]; [destruct above; apply IH |].
    destruct (String.eqb last ".."); apply IH.
Qed.

(** Below an absolute root the normalized segments are ordinary names. *)
Lemma normalizeString_segments_ordinary (res l : list string) :
  forallb ordinary res = true ->
  forallb (fun seg => negb (has_slash seg)) l = true ->
  forallb ordinary (path.normalizeString false res l) = true.
Proof.
  revert res. induction l as [| seg l IH]; intros res Hres Hl.
  - simpl. now rewrite forallb_rev.
  - simpl in Hl. apply andb_true_iff in Hl as [Hseg Hl].
    simpl.
    destruct (String.eqb seg "") eqn:He; [now apply IH |].
    destruct (String.eqb seg ".") eqn:Hd; [now apply IH |].
    destruct (String.eqb seg "..") eqn:Hdd.
    + destruct res as [| last res]; [now apply IH |].
      simpl in Hres. apply andb_true_iff in Hres as [Hlast Hres].
      destruct (String.eqb last "..") eqn:Hl2; [| now apply IH].
      unfold ordinary in Hlast. rewrite Hl2 in Hlast.
      rewrite andb_false_r in Hlast. discriminate Hlast.
    + apply IH; [| exact Hl].
      simpl. rewrite Hres, andb_true_r.
      unfold ordinary. now rewrite He, Hd, Hdd, Hseg.
Qed.

(** The segments of a joined list of names, normalized. *)
Lemma normalizeString_joined (above : bool) (segs res more : list string) :
  forallb ordinary segs = true ->
  path.normalizeString above res
    (match segs with [] => [EmptyString] | _ => segs end ++ more)
  = path.normalizeString above (rev segs ++ res) more.
Proof.
  intros H. destruct segs as [| a segs]; [reflexivity |].
  now apply normalizeString_ordinary.
Qed.

(** A joined list of ordinary names is a relative path, empty only when the
    list is. *)
Lemma join_relative (a : string) (segs : list string) :
  ordinary a = true ->
  String.eqb (path.join (a :: segs)) "" = false /\
  path.starts_with_slash (path.join (a :: segs)) = false.
Proof.
  intros Ha. pose proof (ordinary_no_slash a Ha) as Hs.
  destruct a as [| c a]; [discriminate Ha |].
  simpl in Hs. apply orb_false_iff in Hs as [Hc _].
  unfold path.join.
  destruct segs as [| b segs]; simpl; now rewrite ?Hc.
Qed.

(** ** [path.resolve] below an absolute directory *)

(** When the directory or the working directory is absolute, the path that
    [resolve] normalizes is some prefix followed by [/./src/]. *)
Lemma resolve_prefix (d : string) (p : Process) :
  path.starts_with_slash (cwd p) = true \/ path.starts_with_slash d = true ->
  exists prefix,
    path.resolve [Str d; Str "./src"] p
    = (Normal ("/" +:+ path.join (path.normalizeString false []
                 (path.split (prefix +:+ String "/" "./src/")))), p).
Proof.
  intros H.
  unfold path.resolve, bind. simpl rev. simpl path.resolve_loop.
  destruct (String.eqb d "") eqn:Hd.
  - apply String.eqb_eq in Hd. subst d.
    destruct H as [H | H]; [| discriminate H].
    unfold bind, process_cwd.
    destruct (cwd p) as [| c w] eqn:Hw; [discriminate H |].
    simpl String.eqb. rewrite H.
    exists (String c w). reflexivity.
  - destruct (path.starts_with_slash d) eqn:Habs.
    + exists d. reflexivity.
    + destruct H as [H | H]; [| discriminate H].
      simpl path.resolve_loop. unfold bind, process_cwd.
      destruct (cwd p) as [| c w] eqn:Hw; [discriminate H |].
      simpl String.eqb. rewrite H.
      exists (String c w +:+ String "/" d).
      now rewrite append_assoc.
Qed.

(** When the directory is relative (or empty) the working directory comes
    first. *)
Lemma resolve_from_cwd (d : string) (p : Process) :
  path.starts_with_slash (cwd p) = true ->
  path.starts_with_slash d = false ->
  path.resolve [Str d; Str "./src"] p
  = (Normal ("/" +:+ path.join (path.normalizeString false []
               (path.split
                  (cwd p +:+ String "/"
                     (if String.eqb d "" then "./src/"%string
                      else d +:+ String "/" "./src/"))))), p).
Proof.
  intros Hcwd Hd.
  unfold path.resolve, bind. simpl rev. simpl path.resolve_loop.
  rewrite Hd.
  destruct (cwd p) as [| c w] eqn:Hw; [discriminate Hcwd |].
  destruct (String.eqb d "");
    simpl path.resolve_loop; unfold bind, process_cwd;
    rewrite Hw; simpl String.eqb; rewrite Hcwd; reflexivity.
Qed.

(** Normalizing below an absolute directory of ordinary names. *)
Lemma normalizeString_below (segs : list string) (s : string) :
  forallb ordinary segs = true ->
  path.normalizeString false []
    (path.split (absolute_path segs +:+ String "/" s))
  = path.normalizeString false (rev segs) (path.split s).
Proof.
  intros H. unfold absolute_path.
  change (("/" +:+ path.join segs) +:+ String "/" s)
    with (String "/" (path.join segs +:+ String "/" s)).
  change (path.split (String "/" ?t)) with (EmptyString :: path.split t).
  rewrite (split_join _ _ H).
  change (path.normalizeString false [] (EmptyString :: ?l))
    with (path.normalizeString false [] l).
  rewrite (normalizeString_joined false segs [] _ H).
  now rewrite app_nil_r.
Qed.

(** ** The origin and the alias *)

Section Further.

Context {PluginOption : Type}.
Variable tailwindcss : unit -> PluginOption.
Variable __dirname : string.

Local Abbreviation provider := (export_default tailwindcss __dirname).

(** X4. For every mode, [server.origin] agrees with the other fields of the
    [server] block: it is empty, or, in development, [http://] followed by
    [server.host], a colon and [server.port] in decimal; and [base] is
    [server.origin] followed by [/static/]. *)
Theorem origin_matches_host_and_port (m : value) (p : Process) :
  exists c,
    provider {| mode := m |} p = (Normal c, p) /\
    origin (server c)
    = (if isDev m
       then "http://" +:+ host (server c) +:+ ":"
            +:+ ToString (Number (port (server c)))
       else "") /\
    base c = origin (server c) +:+ "/static/".
Proof.
  destruct (export_default_returns tailwindcss __dirname {| mode := m |} p)
    as (src & _ & Hc).
  eexists. split; [exact Hc |]. cbn [server origin host port base mode].
  split; [| reflexivity].
  unfold devOrigin. destruct (isDev m); reflexivity.
Qed.

(** X5. Whatever string [__dirname] is, when it or the working directory of
    the process is absolute, the alias [@] is an absolute, normalized path
    whose last segment is [src]: a slash, then ordinary names (none empty,
    [.] or [..]) with one slash between two, the last of them [src]. *)
Theorem alias_at_is_normalized (m : value) (p : Process) :
  path.starts_with_slash (cwd p) = true
  \/ path.starts_with_slash __dirname = true ->
  exists c segs,
    provider {| mode := m |} p = (Normal c, p) /\
    alias (resolve c) !! "@"%string
    = Some (absolute_path (segs ++ ["src"%string])) /\
    forallb ordinary segs = true.
Proof.
  intros H.
  destruct (export_default_returns tailwindcss __dirname {| mode := m |} p)
    as (src & Hsrc & Hc).
  destruct (resolve_prefix __dirname p H) as [prefix Hpre].
  rewrite Hpre in Hsrc. injection Hsrc as <-.
  eexists. exists (path.normalizeString false [] (path.split prefix)).
  split; [exact Hc |]. cbn [resolve alias].
  split.
  - rewrite lookup_singleton_eq. unfold absolute_path. do 3 f_equal.
    rewrite split_app_slash, normalizeString_app.
    change (path.split "./src/") with ["."%string; "src"%string; EmptyString].
    change (path.normalizeString false ?r ["."%string; "src"%string; EmptyString])
      with (rev ("src"%string :: r)).
    change (rev ("src"%string :: ?r)) with (rev r ++ ["src"%string]).
    now rewrite rev_involutive.
  - apply normalizeString_segments_ordinary; [reflexivity |].
    apply split_segments_no_slash.
Qed.

(** X6. A relative [__dirname] is resolved against the working directory:
    with the process in [/c1/.../ck] and [__dirname] the relative path
    [d1/.../dn] (or the empty string), the alias [@] is
    [/c1/.../ck/d1/.../dn/src]. *)
Theorem alias_at_relative_dirname
    (csegs dsegs : list string) (m : value) (p : Process) :
  forallb ordinary csegs = true ->
  forallb ordinary dsegs = true ->
  cwd p = absolute_path csegs ->
  __dirname = path.join dsegs ->
  exists c,
    provider {| mode := m |} p = (Normal c, p) /\
    alias (resolve c) !! "@"%string
    = Some (absolute_path (csegs ++ dsegs ++ ["src"%string])).
Proof.
  intros Hc Hd Hcwd Hdir.
  destruct (export_default_returns tailwindcss __dirname {| mode := m |} p)
    as (src & Hsrc & Hret).
  eexists. split; [exact Hret |]. cbn [resolve alias].
  rewrite lookup_singleton_eq. f_equal.
  assert (Habs : path.starts_with_slash (cwd p) = true)
    by now rewrite Hcwd.
  assert (Hrel : path.starts_with_slash __dirname = false).
  { rewrite Hdir. destruct dsegs as [| a dsegs]; [reflexivity |].
    simpl in Hd. apply andb_true_iff in Hd as [Ha _].
    apply (join_relative a dsegs Ha). }
  rewrite (resolve_from_cwd __dirname p Habs Hrel) in Hsrc.
  injection Hsrc as <-.
  unfold absolute_path. do 2 f_equal.
  rewrite Hcwd, Hdir.
  rewrite (normalizeString_below csegs _ Hc).
  destruct dsegs as [| a dsegs].
  - change (rev ("src"%string :: rev csegs) = csegs ++ [] ++ ["src"%string]).
    simpl. now rewrite rev_involutive.
  - pose proof Hd as Hd'.
    simpl in Hd'. apply andb_true_iff in Hd' as [Ha _].
    destruct (join_relative a dsegs Ha) as [Hne _]. rewrite Hne.
    rewrite (split_join _ _ Hd).
    rewrite (normalizeString_joined false (a :: dsegs) _ _ Hd).
    change (rev ("src"%string :: rev (a :: dsegs) ++ rev csegs)
            = csegs ++ (a :: dsegs) ++ ["src"%string]).
    change (rev ("src"%string :: ?r)) with (rev r ++ ["src"%string]).
    rewrite rev_app_distr, !rev_involutive.
    now rewrite <- app_assoc.
Qed.

End Further.

(** A configuration directory written with a doubled slash, a [.] and a
    trailing slash, and a relative one. *)

Lemma alias_at_is_normalized_witness :
  (path.starts_with_slash (cwd {| cwd := "work" |}) = true
   \/ path.starts_with_slash "/srv//app/./frontend/" = true) /\
  exists c segs,
    export_default (fun _ : unit => tt) "/srv//app/./frontend/"
      {| mode := Str "production" |} {| cwd := "work" |}
    = (Normal c, {| cwd := "work" |}) /\
    alias (resolve c) !! "@"%string
    = Some (absolute_path (segs ++ ["src"%string])) /\
    forallb ordinary segs = true.
Proof.
  split; [right; reflexivity |].
  apply alias_at_is_normalized. right. reflexivity.
Defined.

Lemma alias_at_relative_dirname_witness :
  forallb ordinary ["srv"; "app"]%string = true /\
  forallb ordinary ["frontend"]%string = true /\
  cwd {| cwd := "/srv/app" |} = absolute_path ["srv"; "app"]%string /\
  "frontend"%string = path.join ["frontend"]%string /\
  exists c,
    export_default (fun _ : unit => tt) "frontend"
      {| mode := Str "development" |} {| cwd := "/srv/app" |}
    = (Normal c, {| cwd := "/srv/app" |}) /\
    alias (resolve c) !! "@"%string = Some "/srv/app/frontend/src"%string.
Proof.
  repeat (split; [reflexivity |]).
  apply (alias_at_relative_dirname (fun _ : unit => tt) "frontend"
           ["srv"; "app"]%string ["frontend"]%string);
    reflexivity.
Defined.

(** * The plugin factory as a call *)

(** For a factory that returns a handle and does nothing else, the callback
    in the realm is [export_default]. *)
Lemma export_default_realm_constant_factory
    {PluginOption : Type} (handle : unit -> PluginOption)
    (dirname : string) (env : ConfigEnv) (r : Realm) :
  export_default_realm (fun u => retR (handle u)) dirname env r
  = in_process (export_default handle dirname env) r.
Proof.
  unfold export_default_realm, export_default, defineConfig.
  unfold bindR, retR, in_process, bind.
  destruct (path.resolve [Str dirname; Str "./src"] (process r))
    as [[src | e] p']; reflexivity.
Qed.

(** With an absolute directory [path.resolve] reads nothing of the realm. *)
Lemma in_process_resolve_absolute (d : string) :
  path.starts_with_slash d = true ->
  exists src, forall r : Realm,
    in_process (path.resolve [Str d; Str "./src"]) r = (Normal src, r).
Proof.
  intros Habs. eexists. intros [p n].
  unfold in_process. cbn [process allocated].
  rewrite (resolve_absolute d "./src" p Habs eq_refl); [reflexivity |].
  discriminate.
Qed.

Section RealmProperties.

Context {PluginOption : Type}.
Variable tailwindcss : unit -> R PluginOption.
Variable __dirname : string.

Local Abbreviation provider := (export_default_realm tailwindcss __dirname).

(** C9, as the code has it.  Two invocations with the same mode, in each of
    which the call [tailwindcss()] returns, yield objects that agree on
    [base], [server], [build] and [resolve] ([__dirname] being absolute);
    [plugins] holds the handle the call returned in that invocation, and
    the realm after the invocation is the one that call left: the callback
    has no effect of its own. *)
Theorem provider_deterministic_up_to_plugins
    (m : value) (r1 r1' r2 r2' : Realm) (h1 h2 : PluginOption) :
  path.starts_with_slash __dirname = true ->
  tailwindcss tt r1 = (Normal h1, r1') ->
  tailwindcss tt r2 = (Normal h2, r2') ->
  exists c1 c2,
    provider {| mode := m |} r1 = (Normal c1, r1') /\
    provider {| mode := m |} r2 = (Normal c2, r2') /\
    plugins c1 = [h1] /\
    plugins c2 = [h2] /\
    base c1 = base c2 /\
    server c1 = server c2 /\
    build c1 = build c2 /\
    resolve c1 = resolve c2.
Proof.
  intros Habs H1 H2.
  destruct (in_process_resolve_absolute __dirname Habs) as [src Hsrc].
  unfold export_default_realm, defineConfig, bindR.
  rewrite H1, H2, !Hsrc. unfold retR.
  eexists. eexists.
  split; [reflexivity |]. split; [reflexivity |].
  repeat split.
Qed.

End RealmProperties.

(** Two invocations, one after the other, with a factory that makes a new
    object at every call: the objects returned differ in [plugins]. *)
Lemma fresh_plugins_counterexample :
  exists c1 r1 c2 r2,
    export_default_realm (fun _ : unit => new_object) "/srv/app/frontend"
      {| mode := Str "production" |}
      {| process := {| cwd := "/srv/app" |}; allocated := 0 |}
    = (Normal c1, r1) /\
    export_default_realm (fun _ : unit => new_object) "/srv/app/frontend"
      {| mode := Str "production" |} r1
    = (Normal c2, r2) /\
    c1 <> c2.
Proof.
  eexists. eexists. eexists. eexists.
  split; [reflexivity |]. split; [reflexivity |].
  intros H. apply (f_equal plugins) in H. discriminate H.
Qed.

Lemma provider_deterministic_up_to_plugins_witness :
  path.starts_with_slash "/srv/app/frontend" = true /\
  new_object {| process := {| cwd := "/srv/app" |}; allocated := 0 |}
  = (Normal 0%nat, {| process := {| cwd := "/srv/app" |}; allocated := 1 |}) /\
  new_object {| process := {| cwd := "/srv/app" |}; allocated := 1 |}
  = (Normal 1%nat, {| process := {| cwd := "/srv/app" |}; allocated := 2 |}) /\
  exists c1 c2,
    export_default_realm (fun _ : unit => new_object) "/srv/app/frontend"
      {| mode := Str "production" |}
      {| process := {| cwd := "/srv/app" |}; allocated := 0 |}
    = (Normal c1, {| process := {| cwd := "/srv/app" |}; allocated := 1 |}) /\
    export_default_realm (fun _ : unit => new_object) "/srv/app/frontend"
      {| mode := Str "production" |}
      {| process := {| cwd := "/srv/app" |}; allocated := 1 |}
    = (Normal c2, {| process := {| cwd := "/srv/app" |}; allocated := 2 |}) /\
    plugins c1 = [0%nat] /\
    plugins c2 = [1%nat] /\
    base c1 = base c2 /\
    server c1 = server c2 /\
    build c1 = build c2 /\
    resolve c1 = resolve c2.
Proof.
  repeat (split; [reflexivity |]).
  apply (provider_deterministic_up_to_plugins (fun _ : unit => new_object)
           "/srv/app/frontend"); reflexivity.
Defined.
